(** * StarStarStar backend: the OAuth proxy of [backend/main.py]

    A shallow embedding of the four FastAPI handlers of [backend/main.py]
    ([read_root], [login_google], [auth_google_callback], [get_steps]) and
    of the Python operations they apply to decoded JSON, followed by the
    properties of the handlers.

    The process holds one mutable global, [user_access_token]; the handlers
    print to standard output and POST to two outside services.  Handlers are
    written in a small state-and-exception monad over that world, in the
    order of the source statements. *)

From Stdlib Require Import ZArith List String Ascii Bool Lia PrimFloat.
Import ListNotations.
Local Open Scope string_scope.
Local Open Scope Z_scope.
Local Set Warnings "-register-all".

(** ** Python values and the operations [main.py] applies to them *)

Module Py.

(** What [response.json()] can return: the Python image of a JSON text.
    An object keeps its members in textual order. *)
Inductive json : Type :=
| JNull
| JBool (b : bool)
| JInt (z : Z)
| JFloat (f : float)
| JStr (s : string)
| JArr (items : list json)
| JObj (members : list (string * json)).

(** A decoded HTTP response, as far as the handlers look at it:
    [status_code], [text], and [json_body], the outcome of [.json()]
    ([None] when the body is not a JSON text). *)
Record response : Type := mkResponse {
  status_code : Z;
  text : string;
  json_body : option json
}.

(** The exceptions that can leave the statements of the handlers. *)
Inductive exn : Type :=
| AttributeError
| TypeError
| KeyError
| IndexError
| JSONDecodeError
| RequestError                          (* httpx transport failure *)
| HTTPStatusError (r : response).       (* raised by raise_for_status *)

Inductive res (A : Type) : Type :=
| Ok (a : A)
| Raise (e : exn).
Arguments Ok {A} a.
Arguments Raise {A} e.

(** Sequencing: an exception ends the statements that follow. *)
Definition and_then {A B} (r : res A) (k : A -> res B) : res B :=
  match r with
  | Ok a => k a
  | Raise e => Raise e
  end.

(** [bool(v)]: the test of [if v:] and [if not v:]. *)
Definition truthy (v : json) : bool :=
  match v with
  | JNull => false
  | JBool b => b
  | JInt z => negb (z =? 0)
  | JFloat f => negb (PrimFloat.is_zero f)
  | JStr s => negb (String.eqb s "")
  | JArr items => match items with [] => false | _ :: _ => true end
  | JObj members => match members with [] => false | _ :: _ => true end
  end.

(** Truth value of an [Optional[str]] such as [query_params.get('code')]. *)
Definition truthy_str (o : option string) : bool :=
  match o with
  | None => false
  | Some s => negb (String.eqb s "")
  end.

(** The entry of a dict for a key.  [json.loads] keeps the last value of
    a repeated member name. *)
Fixpoint lookup (k : string) (members : list (string * json)) : option json :=
  match members with
  | [] => None
  | (k', v) :: rest =>
      match lookup k rest with
      | Some v' => Some v'
      | None => if String.eqb k k' then Some v else None
      end
  end.

(** [v.get(k, default)]; only a dict has the method. *)
Definition get (v : json) (k : string) (default : json) : res json :=
  match v with
  | JObj members =>
      Ok (match lookup k members with Some x => x | None => default end)
  | _ => Raise AttributeError
  end.

(** [v[k]] for a string key [k]. *)
Definition getitem (v : json) (k : string) : res json :=
  match v with
  | JObj members =>
      match lookup k members with
      | Some x => Ok x
      | None => Raise KeyError
      end
  | _ => Raise TypeError
  end.

(** [v[0]].  A list gives its first element, a str its first character,
    a dict (whose keys are all strings) has no key [0]. *)
Definition getitem0 (v : json) : res json :=
  match v with
  | JArr (x :: _) => Ok x
  | JArr [] => Raise IndexError
  | JStr (String c _) => Ok (JStr (String c EmptyString))
  | JStr EmptyString => Raise IndexError
  | JObj _ => Raise KeyError
  | JNull | JBool _ | JInt _ | JFloat _ => Raise TypeError
  end.

(** [str(o)] for an [Optional[str]], as an f-string formats it. *)
Definition str_opt (o : option string) : string :=
  match o with
  | Some s => s
  | None => "None"
  end.

(** httpx: [Response.is_success]. *)
Definition is_success (r : response) : bool :=
  (200 <=? status_code r) && (status_code r <=? 299).

(** httpx: [Response.raise_for_status()]. *)
Definition raise_for_status (r : response) : res unit :=
  if is_success r then Ok tt else Raise (HTTPStatusError r).

(** [response.json()]. *)
Definition json_of (r : response) : res json :=
  match json_body r with
  | Some v => Ok v
  | None => Raise JSONDecodeError
  end.

End Py.
Import Py.

(** ** The world of the process *)

(** The body of an outgoing POST: [data=] (form fields) or [json=]. *)
Inductive post_body : Type :=
| FormData (fields : list (string * option string))
| JsonData (v : json).

Record http_request : Type := mkRequest {
  req_url : string;
  req_headers : list (string * string);
  req_body : post_body
}.

(** What [await client.post(...)] comes back with. *)
Inductive reply : Type :=
| TransportFailure
| Reply (r : response).

(** What the process does not control: the answers of the outside
    services and the two clock readings of [get_steps], already as
    [int(... .timestamp() * 1000)]. *)
Record env : Type := mkEnv {
  upstream : http_request -> reply;
  today_millis : Z;
  now_millis : Z
}.

(** What the process changes: the global, what it printed, what it sent. *)
Record world : Type := mkWorld {
  user_access_token : json;
  stdout : list string;
  outbox : list http_request
}.

(** The incoming request of the callback: its query parameters in order. *)
Record Request : Type := mkIncoming {
  query_params : list (string * string)
}.

(** Starlette: [QueryParams.get(key)], the last value given for the key. *)
Fixpoint query_params_get (q : list (string * string)) (key : string)
  : option string :=
  match q with
  | [] => None
  | (k, v) :: rest =>
      match query_params_get rest key with
      | Some v' => Some v'
      | None => if String.eqb k key then Some v else None
      end
  end.

(** What a handler returns to FastAPI. *)
Inductive handler_return : Type :=
| RedirectResponse (url : string)
| Payload (body : json)                      (* return {...} *)
| PayloadWithStatus (body : json) (status : Z). (* return {...}, status *)

(** ** The monad of the handlers *)

Definition M (A : Type) : Type := env -> world -> res A * world.

Definition ret {A} (a : A) : M A := fun _ w => (Ok a, w).

Definition bind {A B} (c : M A) (k : A -> M B) : M B :=
  fun e w =>
    match c e w with
    | (Ok a, w') => k a e w'
    | (Raise x, w') => (Raise x, w')
    end.

Notation "x <- c ;; k" := (bind c (fun x => k))
  (at level 61, c at next level, right associativity).
Notation "c ;;; k" := (bind c (fun _ => k))
  (at level 61, right associativity).

Notation "x <~ r ;; k" := (and_then r (fun x => k))
  (at level 61, r at next level, right associativity).

Definition lift {A} (r : res A) : M A := fun _ w => (r, w).

(** [try: body except httpx.HTTPStatusError as e: handler(e.response)] *)
Definition try_except_status {A} (body : M A) (handler : response -> M A)
  : M A :=
  fun e w =>
    match body e w with
    | (Raise (HTTPStatusError r), w') => handler r e w'
    | other => other
    end.

Definition print (line : string) : M unit :=
  fun _ w => (Ok tt, mkWorld (user_access_token w) (stdout w ++ [line]) (outbox w)).

Definition read_token : M json :=
  fun _ w => (Ok (user_access_token w), w).

Definition assign_token (v : json) : M unit :=
  fun _ w => (Ok tt, mkWorld v (stdout w) (outbox w)).

Definition read_clock (f : env -> Z) : M Z :=
  fun e w => (Ok (f e), w).

(** [await client.post(url, ...)]: the request goes out, then the answer
    of the service comes back or the transport fails. *)
Definition client_post (rq : http_request) : M response :=
  fun e w =>
    let w' := mkWorld (user_access_token w) (stdout w) (outbox w ++ [rq]) in
    match upstream e rq with
    | Reply r => (Ok r, w')
    | TransportFailure => (Raise RequestError, w')
    end.

(** ** Configuration and constants of [main.py] *)

Definition REDIRECT_URI : string := "http://localhost:8000/auth/google/callback".
Definition FRONTEND_URL : string := "http://localhost:5173".

(** The nested [if]s of [get_steps] over the decoded body: [steps] starts
    at [0] and is assigned only in the innermost branch. *)
Definition steps_of (data : json) : res json :=
  has_bucket <~ get data "bucket" JNull ;;
  if truthy has_bucket then
    buckets <~ getitem data "bucket" ;;
    bucket <~ getitem0 buckets ;;
    has_dataset <~ get bucket "dataset" JNull ;;
    if truthy has_dataset then
      datasets <~ getitem bucket "dataset" ;;
      dataset <~ getitem0 datasets ;;
      has_point <~ get dataset "point" JNull ;;
      if truthy has_point then
        points <~ getitem dataset "point" ;;
        point <~ getitem0 points ;;
        has_value <~ get point "value" JNull ;;
        if truthy has_value then
          values <~ getitem point "value" ;;
          value <~ getitem0 values ;;
          get value "intVal" (JInt 0)
        else Ok (JInt 0)
      else Ok (JInt 0)
    else Ok (JInt 0)
  else Ok (JInt 0).

Section Backend.

(** [os.getenv] gives [None] for a variable that is not set. *)
Variable GOOGLE_CLIENT_ID : option string.
Variable GOOGLE_CLIENT_SECRET : option string.

(** [str(v)] of a value that is not a [str], as an f-string formats it
    (the text Python prints for numbers, booleans, [None], lists and
    dicts).  The handlers never look inside the result. *)
Variable str_of_value : json -> string.

Definition py_str (v : json) : string :=
  match v with
  | JStr s => s
  | other => str_of_value other
  end.

(** The two [print] calls run when the module is loaded, and the initial
    value of the global. *)
Definition startup : world :=
  mkWorld JNull
    [ "LOADED GOOGLE_CLIENT_ID: " ++ str_opt GOOGLE_CLIENT_ID;
      "LOADED GOOGLE_CLIENT_SECRET: " ++
        (if truthy_str GOOGLE_CLIENT_SECRET then "********" else "None") ]
    [].

(** *** The two outgoing calls *)

(** [client.post(token_url, data=token_data)] of [auth_google_callback]. *)
Definition token_call (code : option string) : http_request :=
  let token_url := "https://oauth2.googleapis.com/token" in
  let token_data :=
    [ ("code", code);
      ("client_id", GOOGLE_CLIENT_ID);
      ("client_secret", GOOGLE_CLIENT_SECRET);
      ("redirect_uri", Some REDIRECT_URI);
      ("grant_type", Some "authorization_code") ] in
  mkRequest token_url [] (FormData token_data).

(** [client.post(api_url, headers=headers, json=request_body)] of
    [get_steps]. *)
Definition steps_call (token : json) (startTimeMillis endTimeMillis : Z)
  : http_request :=
  let api_url :=
    "https://www.googleapis.com/fitness/v1/users/me/dataset:aggregate" in
  let headers := [("Authorization", "Bearer " ++ py_str token)] in
  let request_body :=
    JObj
      [ ("aggregateBy",
         JArr [ JObj
           [ ("dataTypeName", JStr "com.google.step_count.delta");
             ("dataSourceId", JStr
                "derived:com.google.step_count.delta:com.google.android.gms:estimated_steps") ] ]);
        ("bucketByTime", JObj [("durationMillis", JInt 86400000)]);
        ("startTimeMillis", JInt startTimeMillis);
        ("endTimeMillis", JInt endTimeMillis) ] in
  mkRequest api_url headers (JsonData request_body).

(** *** The handlers *)

Definition read_root : M handler_return :=
  ret (Payload (JObj [("message", JStr "Fitness API Backend is running.")])).

Definition login_google : M handler_return :=
  let auth_url :=
    "https://accounts.google.com/o/oauth2/v2/auth?" ++
    "scope=https://www.googleapis.com/auth/fitness.activity.read&" ++
    "include_granted_scopes=true&" ++
    "response_type=code&" ++
    "redirect_uri=" ++ REDIRECT_URI ++ "&" ++
    "client_id=" ++ str_opt GOOGLE_CLIENT_ID in
  ret (RedirectResponse auth_url).

Definition auth_google_callback (request : Request) : M handler_return :=
  let code := query_params_get (query_params request) "code" in
  if negb (truthy_str code) then
    ret (RedirectResponse (FRONTEND_URL ++ "/login-failed"))
  else
    try_except_status
      (response <- client_post (token_call code) ;;
       lift (raise_for_status response) ;;;
       token_json <- lift (json_of response) ;;
       token <- lift (get token_json "access_token" JNull) ;;
       assign_token token ;;;
       ret (RedirectResponse (FRONTEND_URL ++ "/dashboard")))
      (fun e_response =>
         print ("Error exchanging code for token: " ++ text e_response) ;;;
         ret (RedirectResponse (FRONTEND_URL ++ "/login-failed"))).

Definition get_steps : M handler_return :=
  token <- read_token ;;
  if negb (truthy token) then
    ret (PayloadWithStatus (JObj [("error", JStr "Not authenticated")]) 401)
  else
    startTimeMillis <- read_clock today_millis ;;
    endTimeMillis <- read_clock now_millis ;;
    try_except_status
      (response <- client_post (steps_call token startTimeMillis endTimeMillis) ;;
       lift (raise_for_status response) ;;;
       data <- lift (json_of response) ;;
       steps <- lift (steps_of data) ;;
       ret (Payload (JObj [("steps", steps)])))
      (fun e_response =>
         print ("Error fetching steps: " ++ text e_response) ;;;
         ret (PayloadWithStatus
                (JObj [("error", JStr "Failed to fetch steps from Google Fit.")])
                500)).

(** *** The routes, and a run of the process over incoming requests *)

Inductive incoming : Type :=
| GET_root                               (* GET / *)
| GET_login                              (* GET /login *)
| GET_callback (request : Request)       (* GET /auth/google/callback *)
| GET_steps.                             (* GET /get-steps *)

Definition serve (i : incoming) : M handler_return :=
  match i with
  | GET_root => read_root
  | GET_login => login_google
  | GET_callback request => auth_google_callback request
  | GET_steps => get_steps
  end.

(** Requests served one after the other, each against the outside world
    of its moment; the global, the output and the outbox carry over. *)
Fixpoint run (events : list (incoming * env)) (w : world) : world :=
  match events with
  | [] => w
  | (i, e) :: rest => run rest (snd (serve i e w))
  end.

(** A callback whose exchange reaches the assignment of the global: a
    code is given, the Authorization Server answers 2xx and the answer
    decodes to a JSON object. *)
Definition exchange_accepted (request : Request) (e : env) : bool :=
  let code := query_params_get (query_params request) "code" in
  truthy_str code &&
  match upstream e (token_call code) with
  | Reply r =>
      is_success r &&
      match json_body r with Some (JObj _) => true | _ => false end
  | TransportFailure => false
  end.

Definition no_new_login (ev : incoming * env) : Prop :=
  match fst ev with
  | GET_callback request => exchange_accepted request (snd ev) = false
  | _ => True
  end.

(** ** Notions of the specification *)

(** *** The nested structure of the aggregate response

    A path such as [bucket[0].dataset[0].point[0].value[0].intVal] read as
    a JSON pointer: a member name selects in an object, [[0]] selects the
    first element of an array. *)
Inductive seg : Type :=
| Key (name : string)
| First.

Fixpoint resolve (path : list seg) (v : json) : option json :=
  match path with
  | [] => Some v
  | Key name :: path' =>
      match v with
      | JObj members =>
          match lookup name members with
          | Some x => resolve path' x
          | None => None
          end
      | _ => None
      end
  | First :: path' =>
      match v with
      | JArr (x :: _) => resolve path' x
      | _ => None
      end
  end.

Definition intVal_path : list seg :=
  [ Key "bucket"; First; Key "dataset"; First;
    Key "point"; First; Key "value"; First; Key "intVal" ].

(** Every level that is there has the kind the traversal expects of it:
    a member is read from an object only, and where [[0]] is taken the
    value is falsy (treated like a missing one) or an array. *)
Fixpoint well_kinded (path : list seg) (v : json) : Prop :=
  match path with
  | [] => True
  | Key name :: path' =>
      match v with
      | JObj members =>
          match lookup name members with
          | Some x => well_kinded path' x
          | None => True
          end
      | _ => False
      end
  | First :: path' =>
      match v with
      | JArr (x :: _) => well_kinded path' x
      | other => truthy other = false
      end
  end.

(** *** Query strings *)

Definition fitness_scope : string :=
  "https://www.googleapis.com/auth/fitness.activity.read".

(** The pieces of [s] between occurrences of [sep]. *)
Fixpoint split_on (sep : ascii) (s : string) : list string :=
  match s with
  | EmptyString => [EmptyString]
  | String c s' =>
      if Ascii.eqb c sep then EmptyString :: split_on sep s'
      else match split_on sep s' with
           | [] => [String c EmptyString]
           | piece :: pieces => String c piece :: pieces
           end
  end.

(** [s] cut at the first [sep]: what is before, and what is after if
    there is a [sep]. *)
Fixpoint cut_at (sep : ascii) (s : string) : string * option string :=
  match s with
  | EmptyString => (EmptyString, None)
  | String c s' =>
      if Ascii.eqb c sep then (EmptyString, Some s')
      else let (before, after) := cut_at sep s' in (String c before, after)
  end.

(** The [name=value] pairs of the query component of a URL, undecoded. *)
Definition query_pairs (url : string) : list (string * string) :=
  match snd (cut_at "?" url) with
  | None => []
  | Some rest =>
      let query := fst (cut_at "#" rest) in
      map (fun item =>
             let (name, value) := cut_at "=" item in
             (name, match value with Some v => v | None => EmptyString end))
          (split_on "&" query)
  end.

Definition hex_digit (c : ascii) : option nat :=
  let n := nat_of_ascii c in
  if ((48 <=? n) && (n <=? 57))%nat then Some (n - 48)%nat
  else if ((65 <=? n) && (n <=? 70))%nat then Some (n - 55)%nat
  else if ((97 <=? n) && (n <=? 102))%nat then Some (n - 87)%nat
  else None.

(** Percent-decoding (RFC 3986, section 2.1). *)
Fixpoint percent_decode (s : string) : option string :=
  match s with
  | EmptyString => Some EmptyString
  | String c rest =>
      if Ascii.eqb c "%" then
        match rest with
        | String h (String l rest') =>
            match hex_digit h, hex_digit l, percent_decode rest' with
            | Some a, Some b, Some out =>
                Some (String (ascii_of_nat (16 * a + b)) out)
            | _, _, _ => None
            end
        | _ => None
        end
      else option_map (String c) (percent_decode rest)
  end.

(** RFC 3986 unreserved characters: letters, digits, [-], [.], [_], [~]. *)
Definition unreserved (c : ascii) : bool :=
  let n := nat_of_ascii c in
  (((48 <=? n) && (n <=? 57)) || ((65 <=? n) && (n <=? 90)) ||
   ((97 <=? n) && (n <=? 122)) ||
   (n =? 45) || (n =? 46) || (n =? 95) || (n =? 126))%nat.


Fixpoint all_chars (p : ascii -> bool) (s : string) : bool :=
  match s with
  | EmptyString => true
  | String c s' => p c && all_chars p s'
  end.



(** The URL a handler redirects to, when it redirects. *)
Definition redirect_target (out : res handler_return * world) : option string :=
  match fst out with
  | Ok (RedirectResponse url) => Some url
  | _ => None
  end.


(** ** Sample requests, answers and worlds *)

(** [{"bucket": [{"dataset": [{"point": [{"value": [{"intVal": 4321}]}]}]}]}] *)
Definition populated_body : json :=
  JObj [("bucket", JArr [JObj [("dataset", JArr [JObj [("point", JArr [JObj
    [("value", JArr [JObj [("intVal", JInt 4321)]])]])]])]])].

(** [{"bucket": [{"dataset": [{"point": [{"value": [4321]}]}]}]}]: the
    number stands where the object with [intVal] is expected. *)
Definition bare_value_body : json :=
  JObj [("bucket", JArr [JObj [("dataset", JArr [JObj [("point", JArr [JObj
    [("value", JArr [JInt 4321])]])]])]])].

(** [{}]: no [bucket] at all. *)
Definition empty_body : json := JObj [].

(** Outside services that answer every call with [r], at some instant of
    4 November 2026 (UTC). *)
Definition answering (r : response) : env :=
  mkEnv (fun _ => Reply r) 1793750400000 1793829600000.

Definition logged_in : world := mkWorld (JStr "abc123") [] [].

Definition steps_response (body : json) : response :=
  mkResponse 200 "(aggregate)" (Some body).

Definition server_error : response :=
  mkResponse 500 "Internal error encountered." None.

(** [{"access_token": "abc123", "expires_in": 3599, "token_type": "Bearer"}] *)
Definition token_response : response :=
  mkResponse 200 "(token)"
    (Some (JObj [ ("access_token", JStr "abc123");
                  ("expires_in", JInt 3599);
                  ("token_type", JStr "Bearer") ])).

(** [{"token_type": "Bearer"}] *)
Definition tokenless_response : response :=
  mkResponse 200 "(no token)" (Some (JObj [("token_type", JStr "Bearer")])).

Definition invalid_grant : response :=
  mkResponse 400 "invalid_grant" None.

Definition sample_client_id : string := "1234-abc.apps.googleusercontent.com".
Definition sample_secret : string := "GOCSPX-secret".

Definition callback_request : Request :=
  mkIncoming [("code", "4/0AfJohXk"); ("scope", fitness_scope)].

Definition denied_request : Request :=
  mkIncoming [("error", "access_denied")].

(** A stand-in for Python's printing of values that are not strings. *)
Definition sample_str_of_value (v : json) : string :=
  match v with
  | JNull => "None"
  | JBool true => "True"
  | JBool false => "False"
  | _ => "<value>"
  end.

(** Outside services that cannot be reached. *)
Definition unreachable : env :=
  mkEnv (fun _ => TransportFailure) 1793750400000 1793829600000.

(** A 2xx answer whose body is no JSON text. *)
Definition html_response : response :=
  mkResponse 200 "<html>Service temporarily unavailable</html>" None.

(** A 2xx answer whose body is the JSON array [[]]. *)
Definition array_response : response :=
  mkResponse 200 "(array)" (Some (JArr [])).

(** [{"access_token": ""}] *)
Definition empty_token_response : response :=
  mkResponse 200 "(empty token)" (Some (JObj [("access_token", JStr "")])).

(** [{"access_token": "def456"}] *)
Definition second_token_response : response :=
  mkResponse 200 "(second token)" (Some (JObj [("access_token", JStr "def456")])).

(** The callback reached as [/auth/google/callback?code=]. *)
Definition empty_code_request : Request :=
  mkIncoming [("code", "")].

(** [{"bucket": [{"dataset": [{"point": [{"value": [{"intVal": null}]}]}]}]}] *)
Definition null_intVal_body : json :=
  JObj [("bucket", JArr [JObj [("dataset", JArr [JObj [("point", JArr [JObj
    [("value", JArr [JObj [("intVal", JNull)]])]])]])]])].

(** Two buckets, two points in the first and two values in its first
    point; only [4321] sits at the head of every array. *)
Definition crowded_body : json :=
  let value n := JObj [("intVal", JInt n)] in
  let point values := JObj [("value", JArr values)] in
  let bucket points := JObj [("dataset", JArr [JObj [("point", JArr points)]])] in
  JObj [("bucket", JArr
    [ bucket [point [value 4321; value 17]; point [value 250]];
      bucket [point [value 99]] ])].

(** ** Properties *)

(** Unfolds the handlers and the operations of the monad, so that a
    handler applied to an environment and a world computes as far as
    what is known of them allows. *)
Ltac run_handler :=
  unfold get_steps, auth_google_callback, login_google, read_root,
    bind, ret, lift, try_except_status, client_post, print, read_token,
    assign_token, read_clock, raise_for_status, json_of;
  simpl.

Create HintDb backend.

Example query_pairs_sample :
  query_pairs "http://h/p?a=1&b=x%20y#frag" = [("a", "1"); ("b", "x%20y")].
Proof. reflexivity. Qed.

Example percent_decode_sample :
  percent_decode "x%20y%2Fz" = Some "x y/z".
Proof. reflexivity. Qed.

(** *** Python operations *)

Lemma lookup_absent k members :
  (forall v, ~ In (k, v) members) -> lookup k members = None.
Proof.
  induction members as [|[k' v'] rest IH]; intros Hno; simpl; [reflexivity|].
  rewrite IH.
  - destruct (String.eqb k k') eqn:E; [|reflexivity].
    apply String.eqb_eq in E; subst k'.
    exfalso; apply (Hno v'); left; reflexivity.
  - intros v Hin; apply (Hno v); right; exact Hin.
Qed.

Lemma query_params_get_absent q key :
  (forall v, ~ In (key, v) q) -> query_params_get q key = None.
Proof.
  induction q as [|[k' v'] rest IH]; intros Hno; simpl; [reflexivity|].
  rewrite IH.
  - destruct (String.eqb k' key) eqn:E; [|reflexivity].
    apply String.eqb_eq in E; subst k'.
    exfalso; apply (Hno v'); left; reflexivity.
  - intros v Hin; apply (Hno v); right; exact Hin.
Qed.

Lemma truthy_str_some c : c <> "" -> truthy_str (Some c) = true.
Proof.
  intros Hc; simpl.
  destruct (String.eqb c "") eqn:E; [|reflexivity].
  apply String.eqb_eq in E; contradiction.
Qed.

Lemma truthy_JStr t : t <> "" -> truthy (JStr t) = true.
Proof. intros Ht; exact (truthy_str_some t Ht). Qed.

Lemma not_2xx_not_success r :
  status_code r < 200 \/ 299 < status_code r -> is_success r = false.
Proof.
  intros H; unfold is_success.
  destruct (200 <=? status_code r) eqn:Lo; [|reflexivity].
  destruct (status_code r <=? 299) eqn:Hi; [|reflexivity].
  apply Z.leb_le in Lo, Hi; lia.
Qed.

Lemma is_2xx_success r :
  200 <= status_code r <= 299 -> is_success r = true.
Proof.
  intros [Lo Hi]; unfold is_success.
  apply Z.leb_le in Lo, Hi; rewrite Lo, Hi; reflexivity.
Qed.

#[local] Hint Resolve truthy_str_some truthy_JStr not_2xx_not_success
  is_2xx_success : backend.

(** *** One level of the traversal *)

(** A path through [name[0]] resolves exactly when the value is an object
    whose member [name] is an array with a first element from which the
    rest resolves. *)
Lemma resolve_level name path v out :
  resolve (Key name :: First :: path) v = Some out ->
  exists members x xs,
    v = JObj members /\ lookup name members = Some (JArr (x :: xs)) /\
    resolve path x = Some out.
Proof.
  simpl; intros H.
  destruct v as [ | | | | | |members]; try discriminate.
  destruct (lookup name members) as [[ | | | | |[|x xs]|]|] eqn:E;
    try discriminate.
  exists members, x, xs; auto.
Qed.

(** What the code does with such a level: it goes on with the first
    element. *)
Lemma descend_present {A} name members x xs (k : json -> res A) (dflt : res A) :
  lookup name members = Some (JArr (x :: xs)) ->
  (has <~ get (JObj members) name JNull ;;
   if truthy has then
     all <~ getitem (JObj members) name ;;
     first <~ getitem0 all ;;
     k first
   else dflt) = k x.
Proof. intros E; simpl; rewrite E; reflexivity. Qed.

(** And with a level that is missing or falsy: it keeps the default. *)
Lemma descend_absent {A} name members (k : json -> res A) (dflt : res A) :
  match lookup name members with
  | Some x => truthy x = false
  | None => True
  end ->
  (has <~ get (JObj members) name JNull ;;
   if truthy has then
     all <~ getitem (JObj members) name ;;
     first <~ getitem0 all ;;
     k first
   else dflt) = dflt.
Proof.
  intros E; simpl.
  destruct (lookup name members) as [x|]; [rewrite E|]; reflexivity.
Qed.

(** A well-kinded level either stops the traversal or hands over a
    well-kinded first element. *)
Lemma well_kinded_level name path v :
  well_kinded (Key name :: First :: path) v ->
  exists members,
    v = JObj members /\
    (match lookup name members with
     | Some x => truthy x = false
     | None => True
     end \/
     exists x xs,
       lookup name members = Some (JArr (x :: xs)) /\ well_kinded path x).
Proof.
  simpl; intros H.
  destruct v as [ | | | | | |members]; try contradiction.
  exists members; split; [reflexivity|].
  destruct (lookup name members) as [x|] eqn:E; [|left; exact I].
  destruct x as [ | | | | |[|y ys]|]; try (left; exact H).
  right; exists y, ys; auto.
Qed.

(** One level down a path that resolves (hypothesis [H]). *)
Ltac level_resolved H :=
  let E := fresh "E" in
  apply resolve_level in H as (? & ? & ? & -> & E & H);
  rewrite (descend_present _ _ _ _ _ _ E).

Lemma steps_of_resolved data out :
  resolve intVal_path data = Some out -> steps_of data = Ok out.
Proof.
  unfold intVal_path, steps_of; intros H.
  do 4 level_resolved H.
  match type of H with
  | resolve _ ?value = _ =>
      destruct value as [ | | | | | |m]; try discriminate
  end.
  simpl in *. destruct (lookup "intVal" m); [congruence|discriminate].
Qed.

(** One level down a well-kinded body (hypothesis [K]) in which the path
    does not resolve (hypothesis [H]): the default is returned, or the
    traversal goes on. *)
Ltac level_kinded K H :=
  let E := fresh "E" in
  let A := fresh "A" in
  apply well_kinded_level in K as (? & -> & [A|(? & ? & E & K)]);
  [rewrite (descend_absent _ _ _ _ A); reflexivity|];
  rewrite (descend_present _ _ _ _ _ _ E);
  simpl in H; rewrite E in H.

Lemma steps_of_absent data :
  well_kinded intVal_path data ->
  resolve intVal_path data = None ->
  steps_of data = Ok (JInt 0).
Proof.
  unfold intVal_path, steps_of; intros K H.
  do 4 level_kinded K H.
  simpl in K.
  match goal with
  | |- context [get ?value "intVal" _] =>
      destruct value as [ | | | | | |m]; try contradiction
  end.
  simpl. destruct (lookup "intVal" m); [discriminate|reflexivity].
Qed.

(** A level that is there and truthy but is no array makes the code
    raise: at once, or, for a string, as soon as the next statement asks
    its first character for a member. *)
Lemma descend_ill_kinded {A} name members y (k : json -> res A) (dflt : res A) :
  lookup name members = Some y ->
  truthy y = true ->
  (forall x xs, y <> JArr (x :: xs)) ->
  (forall s, exists e, k (JStr s) = Raise e) ->
  exists e,
    (has <~ get (JObj members) name JNull ;;
     if truthy has then
       all <~ getitem (JObj members) name ;;
       first <~ getitem0 all ;;
       k first
     else dflt) = Raise e.
Proof.
  intros E T Hnot Hk. simpl. rewrite E, T. simpl.
  destruct y as [ |b|z|f|[|c s]|[|x xs]|m]; simpl in *;
    try discriminate; eauto.
  exfalso; exact (Hnot x xs eq_refl).
Qed.

Lemma ill_kinded_level name path v :
  ~ well_kinded (Key name :: First :: path) v ->
  (forall members, v <> JObj members) \/
  exists members y,
    v = JObj members /\ lookup name members = Some y /\ truthy y = true /\
    ((forall x xs, y <> JArr (x :: xs)) \/
     exists x xs, y = JArr (x :: xs) /\ ~ well_kinded path x).
Proof.
  intros H.
  destruct v as [ | | | | | |members]; try (left; discriminate).
  right. exists members. simpl in H.
  destruct (lookup name members) as [y|]; [|exfalso; apply H; exact I].
  exists y. split; [reflexivity|]. split; [reflexivity|].
  destruct y as [ |b|z|f|s|[|x xs]|m];
    try (destruct (truthy _) eqn:T; [|exfalso; apply H; reflexivity];
         split; [reflexivity|left; discriminate]).
  split; [reflexivity|]. right. exists x, xs. auto.
Qed.

Lemma get_not_object {A} v name (k : json -> res A) :
  (forall members, v <> JObj members) ->
  (has <~ get v name JNull ;; k has) = Raise AttributeError.
Proof.
  intros H. destruct v; try reflexivity. exfalso; exact (H _ eq_refl).
Qed.

(** One level down an ill-kinded body (hypothesis [K]): the code raises
    at this level, or the traversal goes on. *)
Ltac level_ill_kinded K :=
  let N := fresh "N" in
  let E := fresh "E" in
  let T := fresh "T" in
  apply ill_kinded_level in K
    as [N|(? & ? & -> & E & T & [N|(? & ? & -> & K)])];
  [rewrite (get_not_object _ _ _ N); eauto
  |apply (descend_ill_kinded _ _ _ _ _ E T N);
     intros s; eexists; reflexivity|];
  rewrite (descend_present _ _ _ _ _ _ E).

(** Conversely to [steps_of_absent]: a body in which a level that is
    there has another kind than expected makes the traversal raise. *)
Lemma steps_of_ill_kinded data :
  ~ well_kinded intVal_path data -> exists e, steps_of data = Raise e.
Proof.
  unfold intVal_path, steps_of; intros K.
  do 4 level_ill_kinded K.
  simpl in K.
  match goal with
  | |- context [get ?value "intVal" _] =>
      destruct value as [ | | | | | |m]; try (eexists; reflexivity)
  end.
  exfalso; apply K. destruct (lookup "intVal" m); exact I.
Qed.

(** *** [get_steps] against the three kinds of answer *)

Lemma get_steps_unauthenticated e w :
  truthy (user_access_token w) = false ->
  get_steps e w =
    (Ok (PayloadWithStatus (JObj [("error", JStr "Not authenticated")]) 401), w).
Proof.
  intros Hno. run_handler.
  rewrite Hno; reflexivity.
Qed.

Lemma get_steps_parsed e w r data steps :
  truthy (user_access_token w) = true ->
  upstream e (steps_call (user_access_token w) (today_millis e) (now_millis e))
    = Reply r ->
  is_success r = true ->
  json_body r = Some data ->
  steps_of data = Ok steps ->
  get_steps e w =
    (Ok (Payload (JObj [("steps", steps)])),
     mkWorld (user_access_token w) (stdout w)
       (outbox w ++
        [steps_call (user_access_token w) (today_millis e) (now_millis e)])).
Proof.
  intros Htok Hrep Hok Hbody Hsteps.
  run_handler.
  rewrite Htok; simpl. rewrite Hrep, Hok, Hbody, Hsteps. reflexivity.
Qed.

Lemma get_steps_refused e w r :
  truthy (user_access_token w) = true ->
  upstream e (steps_call (user_access_token w) (today_millis e) (now_millis e))
    = Reply r ->
  is_success r = false ->
  get_steps e w =
    (Ok (PayloadWithStatus
           (JObj [("error", JStr "Failed to fetch steps from Google Fit.")]) 500),
     mkWorld (user_access_token w)
       (stdout w ++ ["Error fetching steps: " ++ text r])
       (outbox w ++
        [steps_call (user_access_token w) (today_millis e) (now_millis e)])).
Proof.
  intros Htok Hrep Hbad.
  run_handler.
  rewrite Htok; simpl. rewrite Hrep, Hbad. reflexivity.
Qed.

(** [get_steps] reads the global and never assigns it. *)
Lemma get_steps_keeps_token e w :
  user_access_token (snd (get_steps e w)) = user_access_token w.
Proof.
  run_handler.
  destruct (truthy (user_access_token w)); simpl; [|reflexivity].
  destruct (upstream e _) as [|r]; simpl; [reflexivity|].
  destruct (is_success r); simpl; [|reflexivity].
  destruct (json_body r) as [data|]; simpl; [|reflexivity].
  destruct (steps_of data) as [s|[ | | | | | |r']]; reflexivity.
Qed.

(** *** [auth_google_callback] against the kinds of answer *)

Lemma callback_without_code request e w :
  truthy_str (query_params_get (query_params request) "code") = false ->
  auth_google_callback request e w =
    (Ok (RedirectResponse (FRONTEND_URL ++ "/login-failed")), w).
Proof.
  intros Hno. unfold auth_google_callback. rewrite Hno. reflexivity.
Qed.

Lemma callback_refused request e w r :
  let code := query_params_get (query_params request) "code" in
  truthy_str code = true ->
  upstream e (token_call code) = Reply r ->
  is_success r = false ->
  auth_google_callback request e w =
    (Ok (RedirectResponse (FRONTEND_URL ++ "/login-failed")),
     mkWorld (user_access_token w)
       (stdout w ++ ["Error exchanging code for token: " ++ text r])
       (outbox w ++ [token_call code])).
Proof.
  intros code Hcode Hrep Hbad. unfold auth_google_callback.
  fold code. rewrite Hcode; simpl.
  run_handler.
  rewrite Hrep, Hbad. reflexivity.
Qed.

Lemma callback_accepted request e w r members :
  let code := query_params_get (query_params request) "code" in
  truthy_str code = true ->
  upstream e (token_call code) = Reply r ->
  is_success r = true ->
  json_body r = Some (JObj members) ->
  auth_google_callback request e w =
    (Ok (RedirectResponse (FRONTEND_URL ++ "/dashboard")),
     mkWorld
       (match lookup "access_token" members with
        | Some token => token
        | None => JNull
        end)
       (stdout w)
       (outbox w ++ [token_call code])).
Proof.
  intros code Hcode Hrep Hok Hbody. unfold auth_google_callback.
  fold code. rewrite Hcode; simpl.
  run_handler.
  rewrite Hrep, Hok, Hbody. reflexivity.
Qed.

(** A callback that does not reach the assignment leaves the global as it
    was, whatever else happens. *)
Lemma callback_keeps_token request e w :
  exchange_accepted request e = false ->
  user_access_token (snd (auth_google_callback request e w))
    = user_access_token w.
Proof.
  unfold exchange_accepted, auth_google_callback.
  destruct (truthy_str (query_params_get (query_params request) "code"));
    simpl; [|reflexivity].
  run_handler.
  destruct (upstream e _) as [|r]; simpl; [reflexivity|].
  destruct (is_success r); simpl; [|reflexivity].
  destruct (json_body r) as [[ | | | | | |members]|]; simpl;
    try reflexivity; discriminate.
Qed.

Lemma serve_keeps_token i e w :
  no_new_login (i, e) ->
  user_access_token (snd (serve i e w)) = user_access_token w.
Proof.
  destruct i as [ | |request| ]; simpl; intros H.
  - reflexivity.
  - reflexivity.
  - apply callback_keeps_token; exact H.
  - apply get_steps_keeps_token.
Qed.

Lemma run_keeps_token events w :
  Forall no_new_login events ->
  user_access_token (run events w) = user_access_token w.
Proof.
  intros H; revert w.
  induction H as [|[i e] rest Hev _ IH]; intros w; simpl; [reflexivity|].
  rewrite IH. apply serve_keeps_token; exact Hev.
Qed.


Lemma get_steps_sends e w :
  truthy (user_access_token w) = true ->
  outbox (snd (get_steps e w)) =
    (outbox w ++
     [steps_call (user_access_token w) (today_millis e) (now_millis e)])%list.
Proof.
  intros Htok.
  run_handler.
  rewrite Htok; simpl.
  destruct (upstream e _) as [|r]; simpl; [reflexivity|].
  destruct (is_success r); simpl; [|reflexivity].
  destruct (json_body r) as [data|]; simpl; [|reflexivity].
  destruct (steps_of data) as [s|[ | | | | | |r']]; reflexivity.
Qed.

(** *** The statements of the specification *)

(** C2. When a token is held and the Fitness Data API answers 2xx with a
    body in which bucket[0].dataset[0].point[0].value[0].intVal is there
    and is the integer [n], /get-steps returns [{"steps": n}]. *)
Theorem get_steps_returns_intVal e w r data n :
  truthy (user_access_token w) = true ->
  upstream e (steps_call (user_access_token w) (today_millis e) (now_millis e))
    = Reply r ->
  200 <= status_code r <= 299 ->
  json_body r = Some data ->
  resolve intVal_path data = Some (JInt n) ->
  fst (get_steps e w) = Ok (Payload (JObj [("steps", JInt n)])).
Proof.
  intros Htok Hrep Hok Hbody Hpath.
  rewrite (get_steps_parsed e w r data (JInt n))
    by auto using steps_of_resolved with backend.
  reflexivity.
Qed.

(** C1, as amended.  When a token is held and the Fitness Data API
    answers 2xx with a body in which some level of
    bucket[0].dataset[0].point[0].value[0].intVal is absent, /get-steps
    returns [{"steps": 0}] and raises nothing, provided every level that
    is there has the expected kind: the body and each first element are
    objects, and bucket, dataset, point and value are arrays or falsy. *)
Theorem get_steps_defaults_to_zero e w r data :
  truthy (user_access_token w) = true ->
  upstream e (steps_call (user_access_token w) (today_millis e) (now_millis e))
    = Reply r ->
  200 <= status_code r <= 299 ->
  json_body r = Some data ->
  well_kinded intVal_path data ->
  resolve intVal_path data = None ->
  fst (get_steps e w) = Ok (Payload (JObj [("steps", JInt 0)])).
Proof.
  intros Htok Hrep Hok Hbody Hkind Hpath.
  rewrite (get_steps_parsed e w r data (JInt 0))
    by auto using steps_of_absent with backend.
  reflexivity.
Qed.

(** C4. Called while no token is held (the global is [None] or otherwise
    falsy, as it is as long as no callback since startup has completed
    an exchange), /get-steps returns the pair of the payload
    [{"error": "Not authenticated"}] and 401, and sends nothing: the
    world is left as it was. *)
Theorem get_steps_without_token e w :
  truthy (user_access_token w) = false \/
  (exists events, Forall no_new_login events /\ w = run events startup) ->
  get_steps e w =
    (Ok (PayloadWithStatus (JObj [("error", JStr "Not authenticated")]) 401), w)
  /\ outbox (snd (get_steps e w)) = outbox w.
Proof.
  intros H.
  assert (Hno : truthy (user_access_token w) = false).
  { destruct H as [H|(events & Hev & ->)]; [exact H|].
    rewrite run_keeps_token by exact Hev. reflexivity. }
  rewrite (get_steps_unauthenticated e w Hno). split; reflexivity.
Qed.

(** C5. A callback whose query parameters contain no [code] is answered
    with a redirect to <frontend>/login-failed, and no token-exchange
    request is made: the world is left as it was. *)
Theorem callback_missing_code_redirects request e w :
  (forall v, ~ In ("code", v) (query_params request)) ->
  auth_google_callback request e w =
    (Ok (RedirectResponse "http://localhost:5173/login-failed"), w)
  /\ outbox (snd (auth_google_callback request e w)) = outbox w.
Proof.
  intros Hno.
  rewrite callback_without_code.
  - split; reflexivity.
  - rewrite (query_params_get_absent _ _ Hno). reflexivity.
Qed.

(** C6. A callback with a code whose token-exchange POST is answered
    with a status outside 200..299 prints the body of that answer and
    redirects to <frontend>/login-failed. *)
Theorem callback_exchange_failure_logged request e w c r :
  query_params_get (query_params request) "code" = Some c ->
  c <> "" ->
  upstream e (token_call (Some c)) = Reply r ->
  status_code r < 200 \/ 299 < status_code r ->
  fst (auth_google_callback request e w) =
    Ok (RedirectResponse "http://localhost:5173/login-failed")
  /\ stdout (snd (auth_google_callback request e w)) =
       (stdout w ++ [("Error exchanging code for token: " ++ text r)%string])%list
  /\ outbox (snd (auth_google_callback request e w)) =
       (outbox w ++ [token_call (Some c)])%list.
Proof.
  intros Hcode Hc Hrep Hbad.
  rewrite (callback_refused request e w r)
    by (rewrite ?Hcode; auto with backend).
  rewrite Hcode. repeat split; reflexivity.
Qed.

(** C7. When a token is held and the Fitness Data API answers with a
    status outside 200..299, /get-steps prints the body of that answer and
    returns the pair of an error payload and 500. *)
Theorem get_steps_upstream_failure e w r :
  truthy (user_access_token w) = true ->
  upstream e (steps_call (user_access_token w) (today_millis e) (now_millis e))
    = Reply r ->
  status_code r < 200 \/ 299 < status_code r ->
  fst (get_steps e w) =
    Ok (PayloadWithStatus
          (JObj [("error", JStr "Failed to fetch steps from Google Fit.")]) 500)
  /\ stdout (snd (get_steps e w)) =
       (stdout w ++ [("Error fetching steps: " ++ text r)%string])%list.
Proof.
  intros Htok Hrep Hbad.
  rewrite (get_steps_refused e w r Htok Hrep (not_2xx_not_success r Hbad)).
  split; reflexivity.
Qed.

(** C10. A callback whose token exchange is answered with a status
    outside 200..299 leaves the stored token as it was: a token held
    from an earlier login is neither cleared nor replaced. *)
Theorem failed_exchange_keeps_token request e w c r :
  query_params_get (query_params request) "code" = Some c ->
  c <> "" ->
  upstream e (token_call (Some c)) = Reply r ->
  status_code r < 200 \/ 299 < status_code r ->
  user_access_token (snd (auth_google_callback request e w)) =
    user_access_token w.
Proof.
  intros Hcode Hc Hrep Hbad.
  rewrite (callback_refused request e w r)
    by (rewrite ?Hcode; auto with backend).
  reflexivity.
Qed.

(** C9. A callback with a code whose exchange is answered 2xx with a
    JSON object that has no [access_token] member sets the stored token
    to [None] and still redirects to <frontend>/dashboard; /get-steps
    then answers with the unauthenticated error and sends nothing. *)
Theorem callback_without_access_token_field request e w c r members :
  query_params_get (query_params request) "code" = Some c ->
  c <> "" ->
  upstream e (token_call (Some c)) = Reply r ->
  200 <= status_code r <= 299 ->
  json_body r = Some (JObj members) ->
  (forall v, ~ In ("access_token", v) members) ->
  let w1 := snd (auth_google_callback request e w) in
  fst (auth_google_callback request e w) =
    Ok (RedirectResponse "http://localhost:5173/dashboard")
  /\ user_access_token w1 = JNull
  /\ forall e',
       get_steps e' w1 =
         (Ok (PayloadWithStatus (JObj [("error", JStr "Not authenticated")]) 401),
          w1).
Proof.
  intros Hcode Hc Hrep Hok Hbody Hno w1. subst w1.
  rewrite (callback_accepted request e w r members)
    by (rewrite ?Hcode; auto with backend).
  rewrite (lookup_absent _ _ Hno). simpl.
  split; [reflexivity|split; [reflexivity|]].
  intros e'. apply get_steps_unauthenticated. reflexivity.
Qed.

(** C3. A callback with a code whose exchange is answered 2xx with a
    JSON object whose [access_token] is the (non-empty) string [t] stores
    [t] in the global and redirects to <frontend>/dashboard; from then on,
    as long as no later callback completes another exchange, every
    /get-steps request POSTs to the aggregate endpoint with the header
    [Authorization: Bearer t]. *)
Theorem login_then_steps_sends_bearer request e w c r members t :
  query_params_get (query_params request) "code" = Some c ->
  c <> "" ->
  upstream e (token_call (Some c)) = Reply r ->
  200 <= status_code r <= 299 ->
  json_body r = Some (JObj members) ->
  lookup "access_token" members = Some (JStr t) ->
  t <> "" ->
  let w1 := snd (auth_google_callback request e w) in
  user_access_token w1 = JStr t
  /\ fst (auth_google_callback request e w) =
       Ok (RedirectResponse "http://localhost:5173/dashboard")
  /\ forall later e',
       Forall no_new_login later ->
       exists call,
         outbox (snd (get_steps e' (run later w1))) =
           (outbox (run later w1) ++ [call])%list
         /\ req_url call =
              "https://www.googleapis.com/fitness/v1/users/me/dataset:aggregate"
         /\ req_headers call = [("Authorization", "Bearer " ++ t)].
Proof.
  intros Hcode Hc Hrep Hok Hbody Htok Ht w1. subst w1.
  rewrite (callback_accepted request e w r members)
    by (rewrite ?Hcode; auto with backend).
  rewrite Htok. simpl. split; [reflexivity|split; [reflexivity|]].
  intros later e' Hlater.
  eexists. split; [|split].
  - apply get_steps_sends.
    rewrite run_keeps_token by exact Hlater. exact (truthy_JStr t Ht).
  - reflexivity.
  - rewrite run_keeps_token by exact Hlater. reflexivity.
Qed.


(** *** Query strings of unreserved characters *)

Lemma unreserved_not c sep :
  unreserved c = true -> unreserved sep = false -> Ascii.eqb c sep = false.
Proof.
  intros Hc Hs. destruct (Ascii.eqb c sep) eqn:E; [|reflexivity].
  apply Ascii.eqb_eq in E; subst sep. congruence.
Qed.

Lemma split_on_unreserved sep s :
  unreserved sep = false -> all_chars unreserved s = true ->
  split_on sep s = [s].
Proof.
  intros Hs. induction s as [|c s IH]; simpl; intros H; [reflexivity|].
  apply andb_true_iff in H as [Hc H].
  rewrite (unreserved_not c sep Hc Hs), (IH H). reflexivity.
Qed.

Lemma cut_at_unreserved sep s :
  unreserved sep = false -> all_chars unreserved s = true ->
  cut_at sep s = (s, None).
Proof.
  intros Hs. induction s as [|c s IH]; simpl; intros H; [reflexivity|].
  apply andb_true_iff in H as [Hc H].
  rewrite (unreserved_not c sep Hc Hs), (IH H). reflexivity.
Qed.




Lemma query_pairs_login cid :
  all_chars unreserved cid = true ->
  query_pairs
    ("https://accounts.google.com/o/oauth2/v2/auth?scope=" ++ fitness_scope ++
     "&include_granted_scopes=true&response_type=code&redirect_uri=" ++
     REDIRECT_URI ++ "&client_id=" ++ cid)
  = [ ("scope", fitness_scope);
      ("include_granted_scopes", "true");
      ("response_type", "code");
      ("redirect_uri", REDIRECT_URI);
      ("client_id", cid) ].
Proof.
  intros H. unfold query_pairs, fitness_scope, REDIRECT_URI. simpl.
  rewrite (cut_at_unreserved "#" cid eq_refl H). simpl.
  rewrite (split_on_unreserved "&" cid eq_refl H). reflexivity.
Qed.



(** ** Further properties of the handlers *)

(** *** Every outcome of one level of the traversal *)

(** Whatever holds of the three exceptions a level can raise, of the
    default and of every continuation holds of the level.  [IndexError]
    is not among them: [[0]] is only taken of a truthy value. *)
Lemma descend_outcome {A} (P : res A -> Prop) v name
    (k : json -> res A) (dflt : res A) :
  P (Raise AttributeError) -> P (Raise TypeError) -> P (Raise KeyError) ->
  P dflt -> (forall x, P (k x)) ->
  P (has <~ get v name JNull ;;
     if truthy has then
       all <~ getitem v name ;;
       first <~ getitem0 all ;;
       k first
     else dflt).
Proof.
  intros PA PT PK Pd Pk.
  destruct v as [ | | | | | |members]; try exact PA.
  simpl. destruct (lookup name members) as [y|] eqn:E; [|exact Pd].
  destruct (truthy y) eqn:T; [|exact Pd].
  destruct y as [ |b|z|f|[|c s]|[|x xs]|m]; simpl in *;
    try discriminate; auto.
Qed.

Ltac level_outcome :=
  apply descend_outcome;
  [intros ? [= <-]; auto | intros ? [= <-]; auto | intros ? [= <-]; auto
  |intros ?; discriminate | intros ?].

Lemma steps_of_raises data x :
  steps_of data = Raise x ->
  x = AttributeError \/ x = TypeError \/ x = KeyError.
Proof.
  revert x. unfold steps_of.
  do 4 level_outcome.
  match goal with
  | |- forall _, get ?value _ _ = _ -> _ => destruct value
  end; simpl; intros raised H; inversion H; auto.
Qed.

Lemma well_kinded_or_not path v :
  well_kinded path v \/ ~ well_kinded path v.
Proof.
  revert v. induction path as [|[name|] path IH]; intros v; simpl.
  - left; exact I.
  - destruct v as [ | | | | | |members]; try (right; intros []).
    destruct (lookup name members) as [x|]; [apply IH|left; exact I].
  - destruct v as [ |b|z|f|s|[|x xs]|m]; try apply IH;
      match goal with
      | |- ?t = false \/ _ =>
          destruct t; [right; discriminate|left; reflexivity]
      end.
Qed.

(** [get_steps] on a 2xx answer that decodes: the outcome of the
    traversal is the outcome of the handler; the [except] branch is not
    entered. *)
Lemma get_steps_decoded e w r data :
  truthy (user_access_token w) = true ->
  upstream e (steps_call (user_access_token w) (today_millis e) (now_millis e))
    = Reply r ->
  is_success r = true ->
  json_body r = Some data ->
  get_steps e w =
    (match steps_of data with
     | Ok steps => Ok (Payload (JObj [("steps", steps)]))
     | Raise x => Raise x
     end,
     mkWorld (user_access_token w) (stdout w)
       (outbox w ++
        [steps_call (user_access_token w) (today_millis e) (now_millis e)])).
Proof.
  intros Htok Hrep Hok Hbody. run_handler.
  rewrite Htok; simpl. rewrite Hrep, Hok, Hbody.
  destruct (steps_of data) as [steps|x] eqn:S; [reflexivity|].
  destruct (steps_of_raises data x S) as [->|[->| ->]]; reflexivity.
Qed.

(** *** What a handler does to the world *)

(** Closes a conjunction of alternatives each of which holds by
    computation. *)
Ltac effects_done :=
  repeat split;
  first [ reflexivity
        | left; reflexivity
        | right; reflexivity
        | right; eexists; reflexivity ].

Lemma get_steps_effects e w :
  user_access_token (snd (get_steps e w)) = user_access_token w
  /\ (outbox (snd (get_steps e w)) = outbox w \/
      outbox (snd (get_steps e w)) =
        (outbox w ++
         [steps_call (user_access_token w) (today_millis e) (now_millis e)])%list)
  /\ (stdout (snd (get_steps e w)) = stdout w \/
      exists r,
        stdout (snd (get_steps e w)) =
          (stdout w ++ [("Error fetching steps: " ++ text r)%string])%list).
Proof.
  run_handler.
  destruct (truthy (user_access_token w)); simpl; [|effects_done].
  destruct (upstream e _) as [|r]; simpl; [effects_done|].
  destruct (is_success r); simpl; [|effects_done].
  destruct (json_body r) as [data|]; simpl; [|effects_done].
  destruct (steps_of data) as [s|[ | | | | | |r']]; simpl; effects_done.
Qed.

Lemma callback_effects request e w :
  (outbox (snd (auth_google_callback request e w)) = outbox w \/
   outbox (snd (auth_google_callback request e w)) =
     (outbox w ++
      [token_call (query_params_get (query_params request) "code")])%list)
  /\ (stdout (snd (auth_google_callback request e w)) = stdout w \/
      exists r,
        stdout (snd (auth_google_callback request e w)) =
          (stdout w ++
           [("Error exchanging code for token: " ++ text r)%string])%list).
Proof.
  unfold auth_google_callback.
  destruct (truthy_str (query_params_get (query_params request) "code"));
    simpl; [|effects_done].
  run_handler.
  destruct (upstream e _) as [|r]; simpl; [effects_done|].
  destruct (is_success r); simpl; [|effects_done].
  destruct (json_body r) as [[ | | | | | |members]|]; simpl; effects_done.
Qed.

(** The two endpoints the process talks to. *)
Lemma serve_sends i e w :
  outbox (snd (serve i e w)) = outbox w \/
  exists call,
    outbox (snd (serve i e w)) = (outbox w ++ [call])%list /\
    (req_url call = "https://oauth2.googleapis.com/token" \/
     req_url call =
       "https://www.googleapis.com/fitness/v1/users/me/dataset:aggregate").
Proof.
  destruct i as [ | |request| ]; simpl; auto.
  - destruct (callback_effects request e w) as [[H|H] _]; [auto|].
    right; eexists; split; [exact H|left; reflexivity].
  - destruct (get_steps_effects e w) as (_ & [H|H] & _); [auto|].
    right; eexists; split; [exact H|right; reflexivity].
Qed.


Lemma run_app events later w :
  run (events ++ later) w = run later (run events w).
Proof.
  revert w. induction events as [|[i e] rest IH]; intros w; simpl;
    [reflexivity|apply IH].
Qed.

(** *** [get_steps]: what comes back and what goes wrong *)

(** X1. Whatever JSON value sits at
    bucket[0].dataset[0].point[0].value[0].intVal of a 2xx answer (a
    string, [null], a list as well as a number) is returned as it is
    under [steps]; the handler does not check that it is an integer. *)
Theorem get_steps_returns_any_intVal e w r data v :
  truthy (user_access_token w) = true ->
  upstream e (steps_call (user_access_token w) (today_millis e) (now_millis e))
    = Reply r ->
  200 <= status_code r <= 299 ->
  json_body r = Some data ->
  resolve intVal_path data = Some v ->
  fst (get_steps e w) = Ok (Payload (JObj [("steps", v)])).
Proof.
  intros Htok Hrep Hok Hbody Hpath.
  rewrite (get_steps_parsed e w r data v)
    by auto using steps_of_resolved with backend.
  reflexivity.
Qed.

(** X2. On a 2xx answer that decodes, [get_steps] returns a [steps]
    payload or lets an [AttributeError], a [TypeError] or a [KeyError]
    out; it never raises [IndexError] (each [[0]] is guarded by a truth
    test) and never answers with the error payload of the [except]
    branch. *)
Theorem decoded_answer_outcomes e w r data :
  truthy (user_access_token w) = true ->
  upstream e (steps_call (user_access_token w) (today_millis e) (now_millis e))
    = Reply r ->
  200 <= status_code r <= 299 ->
  json_body r = Some data ->
  (exists v, fst (get_steps e w) = Ok (Payload (JObj [("steps", v)])))
  \/ fst (get_steps e w) = Raise AttributeError
  \/ fst (get_steps e w) = Raise TypeError
  \/ fst (get_steps e w) = Raise KeyError.
Proof.
  intros Htok Hrep Hok Hbody.
  rewrite (get_steps_decoded e w r data) by auto with backend.
  destruct (steps_of data) as [v|x] eqn:S; simpl.
  - left; exists v; reflexivity.
  - right. destruct (steps_of_raises data x S) as [->|[->| ->]]; auto.
Qed.

(** X3. A [steps] payload never carries anything but the value found at
    the end of the path, or [0] when the path does not resolve. *)
Theorem steps_payload_origin e w r data v :
  truthy (user_access_token w) = true ->
  upstream e (steps_call (user_access_token w) (today_millis e) (now_millis e))
    = Reply r ->
  200 <= status_code r <= 299 ->
  json_body r = Some data ->
  fst (get_steps e w) = Ok (Payload (JObj [("steps", v)])) ->
  resolve intVal_path data = Some v
  \/ (resolve intVal_path data = None /\ v = JInt 0).
Proof.
  intros Htok Hrep Hok Hbody.
  rewrite (get_steps_decoded e w r data) by auto with backend.
  cbn [fst]. intros Hret.
  destruct (resolve intVal_path data) as [found|] eqn:R.
  - rewrite (steps_of_resolved data found R) in Hret. simpl in Hret.
    left. congruence.
  - right. split; [reflexivity|].
    destruct (well_kinded_or_not intVal_path data) as [K|K].
    + rewrite (steps_of_absent data K R) in Hret. simpl in Hret. congruence.
    + destruct (steps_of_ill_kinded data K) as [x S].
      rewrite S in Hret. discriminate.
Qed.

(** X4. [get_steps] prints only when the Fitness Data API answers with a
    status outside 200..299: without a token, on a transport failure, on
    a body that does not decode and on a body whose traversal raises,
    nothing is written to standard output. *)
Theorem get_steps_prints_only_refusals e w :
  (forall r,
     upstream e
       (steps_call (user_access_token w) (today_millis e) (now_millis e))
       = Reply r ->
     is_success r = true) ->
  stdout (snd (get_steps e w)) = stdout w.
Proof.
  intros Hall. run_handler.
  destruct (truthy (user_access_token w)); simpl; [|reflexivity].
  destruct (upstream e _) as [|r] eqn:Hrep; simpl; [reflexivity|].
  rewrite (Hall r eq_refl); simpl.
  destruct (json_body r) as [data|]; simpl; [|reflexivity].
  destruct (steps_of data) as [s|x] eqn:S; [reflexivity|].
  destruct (steps_of_raises data x S) as [->|[->| ->]]; reflexivity.
Qed.

(** X5. Only the callback assigns the global: [/], [/login] and
    [/get-steps] leave the stored token as it is, whatever the outside
    services answer; in particular a refused [/get-steps] does not log
    the user out. *)
Theorem only_callback_assigns_token i e w :
  (forall request, i <> GET_callback request) ->
  user_access_token (snd (serve i e w)) = user_access_token w.
Proof.
  intros Hnot. destruct i as [ | |request| ]; simpl.
  - reflexivity.
  - reflexivity.
  - exfalso; exact (Hnot request eq_refl).
  - apply get_steps_keeps_token.
Qed.

(** X6. When the POST of [get_steps] fails in transport, the
    [RequestError] leaves the handler: it is not turned into the error
    payload and nothing is printed. *)
Theorem get_steps_transport_failure e w :
  truthy (user_access_token w) = true ->
  upstream e (steps_call (user_access_token w) (today_millis e) (now_millis e))
    = TransportFailure ->
  get_steps e w =
    (Raise RequestError,
     mkWorld (user_access_token w) (stdout w)
       (outbox w ++
        [steps_call (user_access_token w) (today_millis e) (now_millis e)])).
Proof.
  intros Htok Hrep. run_handler.
  rewrite Htok; simpl. rewrite Hrep. reflexivity.
Qed.

(** X7. When the Fitness Data API answers 2xx with a body that is no
    JSON text, the [JSONDecodeError] of [response.json()] leaves the
    handler: neither [{"steps": 0}] nor the error payload is returned. *)
Theorem get_steps_undecodable_answer e w r :
  truthy (user_access_token w) = true ->
  upstream e (steps_call (user_access_token w) (today_millis e) (now_millis e))
    = Reply r ->
  200 <= status_code r <= 299 ->
  json_body r = None ->
  get_steps e w =
    (Raise JSONDecodeError,
     mkWorld (user_access_token w) (stdout w)
       (outbox w ++
        [steps_call (user_access_token w) (today_millis e) (now_millis e)])).
Proof.
  intros Htok Hrep Hok Hbody. run_handler.
  rewrite Htok; simpl. rewrite Hrep, (is_2xx_success r Hok), Hbody.
  reflexivity.
Qed.

(** X16. Of a 2xx answer only the first value of the first point of the
    first dataset of the first bucket is read: the outcome is that of
    [value.get("intVal", 0)] on it, whatever else the body holds. *)
Theorem get_steps_reads_first_value_only e w r data value :
  truthy (user_access_token w) = true ->
  upstream e (steps_call (user_access_token w) (today_millis e) (now_millis e))
    = Reply r ->
  200 <= status_code r <= 299 ->
  json_body r = Some data ->
  resolve [ Key "bucket"; First; Key "dataset"; First;
            Key "point"; First; Key "value"; First ] data = Some value ->
  fst (get_steps e w) =
    match get value "intVal" (JInt 0) with
    | Ok steps => Ok (Payload (JObj [("steps", steps)]))
    | Raise x => Raise x
    end.
Proof.
  intros Htok Hrep Hok Hbody H.
  rewrite (get_steps_decoded e w r data) by auto with backend.
  simpl fst. unfold steps_of.
  do 4 level_resolved H.
  simpl in H. injection H as ->. reflexivity.
Qed.

(** *** [auth_google_callback]: what goes wrong *)

(** X8. When the token-exchange POST fails in transport, the
    [RequestError] leaves the handler: no redirect is returned, nothing
    is printed and the stored token is as before. *)
Theorem callback_transport_failure request e w c :
  query_params_get (query_params request) "code" = Some c ->
  c <> "" ->
  upstream e (token_call (Some c)) = TransportFailure ->
  auth_google_callback request e w =
    (Raise RequestError,
     mkWorld (user_access_token w) (stdout w)
       (outbox w ++ [token_call (Some c)])).
Proof.
  intros Hcode Hc Hrep. unfold auth_google_callback.
  rewrite Hcode, (truthy_str_some c Hc). run_handler.
  rewrite Hrep. reflexivity.
Qed.

(** X9. When the Authorization Server answers 2xx with a body that is
    not a JSON object, the callback returns no redirect: a
    [JSONDecodeError] (no JSON text) or an [AttributeError] (a JSON value
    of another kind) leaves the handler, and the stored token is as
    before. *)
Theorem callback_answer_not_object request e w c r :
  query_params_get (query_params request) "code" = Some c ->
  c <> "" ->
  upstream e (token_call (Some c)) = Reply r ->
  200 <= status_code r <= 299 ->
  (forall members, json_body r <> Some (JObj members)) ->
  auth_google_callback request e w =
    (Raise (match json_body r with
            | None => JSONDecodeError
            | Some _ => AttributeError
            end),
     mkWorld (user_access_token w) (stdout w)
       (outbox w ++ [token_call (Some c)])).
Proof.
  intros Hcode Hc Hrep Hok Hbody. unfold auth_google_callback.
  rewrite Hcode, (truthy_str_some c Hc). run_handler.
  rewrite Hrep, (is_2xx_success r Hok).
  destruct (json_body r) as [[ | | | | | |members]|]; try reflexivity.
  exfalso; exact (Hbody members eq_refl).
Qed.

(** X10. A callback whose [code] parameter is there but empty is
    handled like one without [code]: redirect to
    <frontend>/login-failed, nothing sent, the world as before. *)
Theorem callback_empty_code request e w :
  query_params_get (query_params request) "code" = Some "" ->
  auth_google_callback request e w =
    (Ok (RedirectResponse "http://localhost:5173/login-failed"), w).
Proof.
  intros Hcode. apply callback_without_code. rewrite Hcode. reflexivity.
Qed.

(** X11. When the exchange is answered 2xx with an [access_token] that
    is falsy (an empty string, [0], [false], [null], an empty list or
    object), the callback stores it and still redirects to
    <frontend>/dashboard, but /get-steps then answers with the
    unauthenticated error and sends nothing. *)
Theorem callback_falsy_token request e w c r members v :
  query_params_get (query_params request) "code" = Some c ->
  c <> "" ->
  upstream e (token_call (Some c)) = Reply r ->
  200 <= status_code r <= 299 ->
  json_body r = Some (JObj members) ->
  lookup "access_token" members = Some v ->
  truthy v = false ->
  let w1 := snd (auth_google_callback request e w) in
  fst (auth_google_callback request e w) =
    Ok (RedirectResponse "http://localhost:5173/dashboard")
  /\ user_access_token w1 = v
  /\ forall e',
       get_steps e' w1 =
         (Ok (PayloadWithStatus (JObj [("error", JStr "Not authenticated")]) 401),
          w1).
Proof.
  intros Hcode Hc Hrep Hok Hbody Htok Hv w1. subst w1.
  rewrite (callback_accepted request e w r members)
    by (rewrite ?Hcode; auto with backend).
  rewrite Htok. simpl.
  split; [reflexivity|split; [reflexivity|]].
  intros e'. apply get_steps_unauthenticated. exact Hv.
Qed.

(** *** Runs of the process *)

(** X12. A completed exchange overwrites the stored token whatever was
    held and whatever was served before: after it the global is the
    [access_token] of that answer ([None] if there is none). *)
Theorem new_login_overwrites events request e w c r members :
  query_params_get (query_params request) "code" = Some c ->
  c <> "" ->
  upstream e (token_call (Some c)) = Reply r ->
  200 <= status_code r <= 299 ->
  json_body r = Some (JObj members) ->
  user_access_token (run (events ++ [(GET_callback request, e)]) w) =
    match lookup "access_token" members with
    | Some token => token
    | None => JNull
    end.
Proof.
  intros Hcode Hc Hrep Hok Hbody.
  rewrite run_app. simpl.
  rewrite (callback_accepted request e (run events w) r members)
    by (rewrite ?Hcode; auto with backend).
  reflexivity.
Qed.

(** X13. Along any run the outbox only grows, by at most one request per
    request served, and every request sent goes to the token endpoint or
    to the aggregate endpoint. *)
Theorem run_sends_to_two_endpoints events w :
  exists sent,
    outbox (run events w) = (outbox w ++ sent)%list
    /\ (List.length sent <= List.length events)%nat
    /\ Forall
         (fun call =>
            req_url call = "https://oauth2.googleapis.com/token" \/
            req_url call =
              "https://www.googleapis.com/fitness/v1/users/me/dataset:aggregate")
         sent.
Proof.
  revert w. induction events as [|[i e] rest IH]; intros w; simpl.
  - exists []. rewrite app_nil_r.
    split; [reflexivity|split; [apply Nat.le_refl|constructor]].
  - destruct (IH (snd (serve i e w))) as (sent & Hout & Hlen & Hurl).
    destruct (serve_sends i e w) as [Hsame|(call & Hone & Hcall)].
    + exists sent. rewrite Hout, Hsame. auto.
    + exists (call :: sent). rewrite Hout, Hone, <- app_assoc. simpl.
      repeat split; [lia|constructor; assumption].
Qed.


(** *** The two halves of the authorization-code flow *)

(** X17. The token exchange names the same redirect URI and the same
    client identifier that /login put into the authorization URL, and
    carries the received code as it came. *)
Theorem exchange_matches_login cid code e w :
  GOOGLE_CLIENT_ID = Some cid ->
  all_chars unreserved cid = true ->
  exists url fields,
    redirect_target (login_google e w) = Some url
    /\ req_body (token_call code) = FormData fields
    /\ In ("redirect_uri", REDIRECT_URI) (query_pairs url)
    /\ In ("redirect_uri", Some REDIRECT_URI) fields
    /\ In ("client_id", cid) (query_pairs url)
    /\ In ("client_id", Some cid) fields
    /\ In ("code", code) fields.
Proof.
  intros Hcid Hsafe.
  unfold login_google, token_call, redirect_target, ret. rewrite Hcid.
  do 2 eexists. split; [reflexivity|]. split; [reflexivity|].
  change (query_pairs _) with
    (query_pairs
       ("https://accounts.google.com/o/oauth2/v2/auth?scope=" ++ fitness_scope ++
        "&include_granted_scopes=true&response_type=code&redirect_uri=" ++
        REDIRECT_URI ++ "&client_id=" ++ cid)).
  rewrite (query_pairs_login cid Hsafe).
  simpl. auto 10.
Qed.

End Backend.

(** ** The statements at sample inputs *)

(** The second test of the specification: [intVal: 4321] comes back as
    [{"steps": 4321}]. *)
Lemma get_steps_returns_intVal_sample :
  fst (get_steps sample_str_of_value
         (answering (steps_response populated_body)) logged_in)
  = Ok (Payload (JObj [("steps", JInt 4321)])).
Proof.
  apply (get_steps_returns_intVal sample_str_of_value
           (answering (steps_response populated_body)) logged_in
           (steps_response populated_body) populated_body 4321).
  - reflexivity.
  - reflexivity.
  - simpl; lia.
  - reflexivity.
  - reflexivity.
Defined.

(** A body without [bucket] gives [{"steps": 0}]. *)
Lemma get_steps_defaults_to_zero_sample :
  fst (get_steps sample_str_of_value
         (answering (steps_response empty_body)) logged_in)
  = Ok (Payload (JObj [("steps", JInt 0)])).
Proof.
  apply (get_steps_defaults_to_zero sample_str_of_value
           (answering (steps_response empty_body)) logged_in
           (steps_response empty_body) empty_body).
  - reflexivity.
  - reflexivity.
  - simpl; lia.
  - reflexivity.
  - simpl; exact I.
  - reflexivity.
Defined.

(** C1 fails as stated: in [bare_value_body] the level [intVal] is
    absent, the answer is 2xx and a token is held, yet [get_steps] does
    not return [{"steps": 0}]: [value.get] is called on the integer 4321
    and the [AttributeError] leaves the handler. *)
Lemma get_steps_bare_value_raises :
  resolve intVal_path bare_value_body = None
  /\ fst (get_steps sample_str_of_value
            (answering (steps_response bare_value_body)) logged_in)
     = Raise AttributeError
  /\ fst (get_steps sample_str_of_value
            (answering (steps_response bare_value_body)) logged_in)
     <> Ok (Payload (JObj [("steps", JInt 0)])).
Proof.
  split; [reflexivity|]. split; [reflexivity|]. discriminate.
Qed.

(** The third test of the specification: after the exchange answered
    with [access_token: "abc123"], /get-steps sends [Bearer abc123]. *)
Lemma login_then_steps_sends_bearer_sample :
  let w1 :=
    snd (auth_google_callback (Some sample_client_id) (Some sample_secret)
           callback_request (answering token_response)
           (startup (Some sample_client_id) (Some sample_secret))) in
  user_access_token w1 = JStr "abc123"
  /\ fst (auth_google_callback (Some sample_client_id) (Some sample_secret)
            callback_request (answering token_response)
            (startup (Some sample_client_id) (Some sample_secret)))
     = Ok (RedirectResponse "http://localhost:5173/dashboard")
  /\ forall later e',
       Forall (no_new_login (Some sample_client_id) (Some sample_secret)) later ->
       exists call,
         outbox (snd (get_steps sample_str_of_value e'
                        (run (Some sample_client_id) (Some sample_secret)
                           sample_str_of_value later w1))) =
           (outbox (run (Some sample_client_id) (Some sample_secret)
                      sample_str_of_value later w1) ++ [call])%list
         /\ req_url call =
              "https://www.googleapis.com/fitness/v1/users/me/dataset:aggregate"
         /\ req_headers call = [("Authorization", "Bearer abc123")].
Proof.
  apply (login_then_steps_sends_bearer (Some sample_client_id)
           (Some sample_secret) sample_str_of_value callback_request
           (answering token_response)
           (startup (Some sample_client_id) (Some sample_secret))
           "4/0AfJohXk" token_response
           [ ("access_token", JStr "abc123"); ("expires_in", JInt 3599);
             ("token_type", JStr "Bearer") ]
           "abc123").
  - reflexivity.
  - discriminate.
  - reflexivity.
  - simpl; lia.
  - reflexivity.
  - reflexivity.
  - discriminate.
Defined.

(** The fourth test of the specification: no login since startup, only
    other requests and a callback without code. *)
Lemma get_steps_without_token_sample :
  let e := answering token_response in
  let w :=
    run (Some sample_client_id) (Some sample_secret) sample_str_of_value
      [ (GET_root, e); (GET_login, e); (GET_callback denied_request, e);
        (GET_steps, e) ]
      (startup (Some sample_client_id) (Some sample_secret)) in
  get_steps sample_str_of_value e w =
    (Ok (PayloadWithStatus (JObj [("error", JStr "Not authenticated")]) 401), w)
  /\ outbox (snd (get_steps sample_str_of_value e w)) = outbox w.
Proof.
  intros e w.
  apply (get_steps_without_token (Some sample_client_id) (Some sample_secret)
           sample_str_of_value e w).
  right.
  exists [ (GET_root, e); (GET_login, e); (GET_callback denied_request, e);
           (GET_steps, e) ].
  split; [|reflexivity].
  repeat constructor.
Defined.

Lemma callback_missing_code_redirects_sample :
  auth_google_callback (Some sample_client_id) (Some sample_secret)
    denied_request (answering token_response) logged_in =
    (Ok (RedirectResponse "http://localhost:5173/login-failed"), logged_in)
  /\ outbox (snd (auth_google_callback (Some sample_client_id)
                    (Some sample_secret) denied_request
                    (answering token_response) logged_in))
     = outbox logged_in.
Proof.
  apply (callback_missing_code_redirects (Some sample_client_id)
           (Some sample_secret) denied_request (answering token_response)
           logged_in).
  intros v [H|[]]. discriminate H.
Defined.

Lemma callback_exchange_failure_logged_sample :
  fst (auth_google_callback (Some sample_client_id) (Some sample_secret)
         callback_request (answering invalid_grant) logged_in) =
    Ok (RedirectResponse "http://localhost:5173/login-failed")
  /\ stdout (snd (auth_google_callback (Some sample_client_id)
                    (Some sample_secret) callback_request
                    (answering invalid_grant) logged_in)) =
       (stdout logged_in ++
        ["Error exchanging code for token: invalid_grant"])%list
  /\ outbox (snd (auth_google_callback (Some sample_client_id)
                    (Some sample_secret) callback_request
                    (answering invalid_grant) logged_in)) =
       (outbox logged_in ++
        [token_call (Some sample_client_id) (Some sample_secret)
           (Some "4/0AfJohXk")])%list.
Proof.
  apply (callback_exchange_failure_logged (Some sample_client_id)
           (Some sample_secret) callback_request (answering invalid_grant)
           logged_in "4/0AfJohXk" invalid_grant).
  - reflexivity.
  - discriminate.
  - reflexivity.
  - right; simpl; lia.
Defined.

(** The last test of the specification: an answer with status 500. *)
Lemma get_steps_upstream_failure_sample :
  fst (get_steps sample_str_of_value (answering server_error) logged_in) =
    Ok (PayloadWithStatus
          (JObj [("error", JStr "Failed to fetch steps from Google Fit.")]) 500)
  /\ stdout (snd (get_steps sample_str_of_value (answering server_error)
                    logged_in)) =
       (stdout logged_in ++
        ["Error fetching steps: Internal error encountered."])%list.
Proof.
  apply (get_steps_upstream_failure sample_str_of_value
           (answering server_error) logged_in server_error).
  - reflexivity.
  - reflexivity.
  - right; simpl; lia.
Defined.

Lemma failed_exchange_keeps_token_sample :
  user_access_token
    (snd (auth_google_callback (Some sample_client_id) (Some sample_secret)
            callback_request (answering invalid_grant) logged_in))
  = JStr "abc123".
Proof.
  apply (failed_exchange_keeps_token (Some sample_client_id)
           (Some sample_secret) callback_request (answering invalid_grant)
           logged_in "4/0AfJohXk" invalid_grant).
  - reflexivity.
  - discriminate.
  - reflexivity.
  - right; simpl; lia.
Defined.

Lemma callback_without_access_token_field_sample :
  let w1 :=
    snd (auth_google_callback (Some sample_client_id) (Some sample_secret)
           callback_request (answering tokenless_response) logged_in) in
  fst (auth_google_callback (Some sample_client_id) (Some sample_secret)
         callback_request (answering tokenless_response) logged_in) =
    Ok (RedirectResponse "http://localhost:5173/dashboard")
  /\ user_access_token w1 = JNull
  /\ forall e',
       get_steps sample_str_of_value e' w1 =
         (Ok (PayloadWithStatus (JObj [("error", JStr "Not authenticated")]) 401),
          w1).
Proof.
  apply (callback_without_access_token_field (Some sample_client_id)
           (Some sample_secret) sample_str_of_value callback_request
           (answering tokenless_response) logged_in "4/0AfJohXk"
           tokenless_response [("token_type", JStr "Bearer")]).
  - reflexivity.
  - discriminate.
  - reflexivity.
  - simpl; lia.
  - reflexivity.
  - intros v [H|[]]. discriminate H.
Defined.



(** ** The client secret at startup *)

(** X15. What is printed when the module is loaded does not depend on
    the client secret once one is set: the second line shows eight
    asterisks for every non-empty secret.  An empty secret is shown like
    an unset one. *)
Theorem startup_masks_secret cid s1 s2 :
  s1 <> "" -> s2 <> "" ->
  startup cid (Some s1) = startup cid (Some s2)
  /\ stdout (startup cid (Some s1)) =
       [ ("LOADED GOOGLE_CLIENT_ID: " ++ str_opt cid)%string;
         "LOADED GOOGLE_CLIENT_SECRET: ********" ]
  /\ startup cid (Some "") = startup cid None.
Proof.
  intros H1 H2. unfold startup.
  rewrite (truthy_str_some s1 H1), (truthy_str_some s2 H2).
  repeat split; reflexivity.
Qed.

(** ** The further properties at sample inputs *)

(** [intVal: null] comes back as [{"steps": null}]. *)
Lemma get_steps_returns_any_intVal_sample :
  fst (get_steps sample_str_of_value
         (answering (steps_response null_intVal_body)) logged_in)
  = Ok (Payload (JObj [("steps", JNull)])).
Proof.
  apply (get_steps_returns_any_intVal sample_str_of_value
           (answering (steps_response null_intVal_body)) logged_in
           (steps_response null_intVal_body) null_intVal_body JNull).
  - reflexivity.
  - reflexivity.
  - simpl; lia.
  - reflexivity.
  - reflexivity.
Defined.

Lemma decoded_answer_outcomes_sample :
  (exists v,
     fst (get_steps sample_str_of_value
            (answering (steps_response bare_value_body)) logged_in)
     = Ok (Payload (JObj [("steps", v)])))
  \/ fst (get_steps sample_str_of_value
            (answering (steps_response bare_value_body)) logged_in)
     = Raise AttributeError
  \/ fst (get_steps sample_str_of_value
            (answering (steps_response bare_value_body)) logged_in)
     = Raise TypeError
  \/ fst (get_steps sample_str_of_value
            (answering (steps_response bare_value_body)) logged_in)
     = Raise KeyError.
Proof.
  apply (decoded_answer_outcomes sample_str_of_value
           (answering (steps_response bare_value_body)) logged_in
           (steps_response bare_value_body) bare_value_body).
  - reflexivity.
  - reflexivity.
  - simpl; lia.
  - reflexivity.
Defined.

Lemma steps_payload_origin_sample :
  resolve intVal_path populated_body = Some (JInt 4321)
  \/ (resolve intVal_path populated_body = None /\ JInt 4321 = JInt 0).
Proof.
  apply (steps_payload_origin sample_str_of_value
           (answering (steps_response populated_body)) logged_in
           (steps_response populated_body) populated_body (JInt 4321)).
  - reflexivity.
  - reflexivity.
  - simpl; lia.
  - reflexivity.
  - reflexivity.
Defined.

(** A 2xx body on which the traversal raises leaves no line. *)
Lemma get_steps_prints_only_refusals_sample :
  stdout (snd (get_steps sample_str_of_value
                 (answering (steps_response bare_value_body)) logged_in))
  = stdout logged_in.
Proof.
  apply (get_steps_prints_only_refusals sample_str_of_value
           (answering (steps_response bare_value_body)) logged_in).
  intros r H. injection H as <-. reflexivity.
Defined.

(** A refused /get-steps keeps the user logged in. *)
Lemma only_callback_assigns_token_sample :
  user_access_token
    (snd (serve (Some sample_client_id) (Some sample_secret)
            sample_str_of_value GET_steps (answering server_error) logged_in))
  = JStr "abc123".
Proof.
  apply (only_callback_assigns_token (Some sample_client_id)
           (Some sample_secret) sample_str_of_value GET_steps
           (answering server_error) logged_in).
  intros request H. discriminate H.
Defined.

Lemma get_steps_transport_failure_sample :
  get_steps sample_str_of_value unreachable logged_in =
    (Raise RequestError,
     mkWorld (JStr "abc123") []
       [steps_call sample_str_of_value (JStr "abc123")
          1793750400000 1793829600000]).
Proof.
  apply (get_steps_transport_failure sample_str_of_value unreachable
           logged_in).
  - reflexivity.
  - reflexivity.
Defined.

Lemma get_steps_undecodable_answer_sample :
  get_steps sample_str_of_value (answering html_response) logged_in =
    (Raise JSONDecodeError,
     mkWorld (JStr "abc123") []
       [steps_call sample_str_of_value (JStr "abc123")
          1793750400000 1793829600000]).
Proof.
  apply (get_steps_undecodable_answer sample_str_of_value
           (answering html_response) logged_in html_response).
  - reflexivity.
  - reflexivity.
  - simpl; lia.
  - reflexivity.
Defined.

(** The other buckets, points and values of [crowded_body] are not
    added up. *)
Lemma get_steps_reads_first_value_only_sample :
  fst (get_steps sample_str_of_value
         (answering (steps_response crowded_body)) logged_in)
  = Ok (Payload (JObj [("steps", JInt 4321)])).
Proof.
  apply (get_steps_reads_first_value_only sample_str_of_value
           (answering (steps_response crowded_body)) logged_in
           (steps_response crowded_body) crowded_body
           (JObj [("intVal", JInt 4321)])).
  - reflexivity.
  - reflexivity.
  - simpl; lia.
  - reflexivity.
  - reflexivity.
Defined.

Lemma callback_transport_failure_sample :
  auth_google_callback (Some sample_client_id) (Some sample_secret)
    callback_request unreachable logged_in =
    (Raise RequestError,
     mkWorld (JStr "abc123") []
       [token_call (Some sample_client_id) (Some sample_secret)
          (Some "4/0AfJohXk")]).
Proof.
  apply (callback_transport_failure (Some sample_client_id)
           (Some sample_secret) callback_request unreachable logged_in
           "4/0AfJohXk").
  - reflexivity.
  - discriminate.
  - reflexivity.
Defined.

Lemma callback_answer_not_object_sample :
  auth_google_callback (Some sample_client_id) (Some sample_secret)
    callback_request (answering array_response) logged_in =
    (Raise AttributeError,
     mkWorld (JStr "abc123") []
       [token_call (Some sample_client_id) (Some sample_secret)
          (Some "4/0AfJohXk")]).
Proof.
  apply (callback_answer_not_object (Some sample_client_id)
           (Some sample_secret) callback_request (answering array_response)
           logged_in "4/0AfJohXk" array_response).
  - reflexivity.
  - discriminate.
  - reflexivity.
  - simpl; lia.
  - intros members H. discriminate H.
Defined.

Lemma callback_empty_code_sample :
  auth_google_callback (Some sample_client_id) (Some sample_secret)
    empty_code_request (answering token_response) logged_in =
    (Ok (RedirectResponse "http://localhost:5173/login-failed"), logged_in).
Proof.
  apply (callback_empty_code (Some sample_client_id) (Some sample_secret)
           empty_code_request (answering token_response) logged_in).
  reflexivity.
Defined.

Lemma callback_falsy_token_sample :
  let w1 :=
    snd (auth_google_callback (Some sample_client_id) (Some sample_secret)
           callback_request (answering empty_token_response) logged_in) in
  fst (auth_google_callback (Some sample_client_id) (Some sample_secret)
         callback_request (answering empty_token_response) logged_in) =
    Ok (RedirectResponse "http://localhost:5173/dashboard")
  /\ user_access_token w1 = JStr ""
  /\ forall e',
       get_steps sample_str_of_value e' w1 =
         (Ok (PayloadWithStatus (JObj [("error", JStr "Not authenticated")]) 401),
          w1).
Proof.
  apply (callback_falsy_token (Some sample_client_id) (Some sample_secret)
           sample_str_of_value callback_request
           (answering empty_token_response) logged_in "4/0AfJohXk"
           empty_token_response [("access_token", JStr "")] (JStr "")).
  - reflexivity.
  - discriminate.
  - reflexivity.
  - simpl; lia.
  - reflexivity.
  - reflexivity.
  - reflexivity.
Defined.

(** A second login after a first one and a /get-steps. *)
Lemma new_login_overwrites_sample :
  user_access_token
    (run (Some sample_client_id) (Some sample_secret) sample_str_of_value
       ([ (GET_callback callback_request, answering token_response);
          (GET_steps, answering (steps_response populated_body)) ] ++
        [ (GET_callback callback_request, answering second_token_response) ])
       (startup (Some sample_client_id) (Some sample_secret)))
  = JStr "def456".
Proof.
  apply (new_login_overwrites (Some sample_client_id) (Some sample_secret)
           sample_str_of_value
           [ (GET_callback callback_request, answering token_response);
             (GET_steps, answering (steps_response populated_body)) ]
           callback_request (answering second_token_response)
           (startup (Some sample_client_id) (Some sample_secret))
           "4/0AfJohXk" second_token_response
           [("access_token", JStr "def456")]).
  - reflexivity.
  - discriminate.
  - reflexivity.
  - simpl; lia.
  - reflexivity.
Defined.

Lemma startup_masks_secret_sample :
  startup (Some sample_client_id) (Some sample_secret) =
    startup (Some sample_client_id) (Some "another-secret")
  /\ stdout (startup (Some sample_client_id) (Some sample_secret)) =
       [ "LOADED GOOGLE_CLIENT_ID: 1234-abc.apps.googleusercontent.com";
         "LOADED GOOGLE_CLIENT_SECRET: ********" ]
  /\ startup (Some sample_client_id) (Some "") =
       startup (Some sample_client_id) None.
Proof.
  apply (startup_masks_secret (Some sample_client_id) sample_secret
           "another-secret").
  - discriminate.
  - discriminate.
Defined.

Lemma exchange_matches_login_sample :
  exists url fields,
    redirect_target
      (login_google (Some sample_client_id) (answering token_response)
         logged_in) = Some url
    /\ req_body (token_call (Some sample_client_id) (Some sample_secret)
                   (Some "4/0AfJohXk")) = FormData fields
    /\ In ("redirect_uri", REDIRECT_URI) (query_pairs url)
    /\ In ("redirect_uri", Some REDIRECT_URI) fields
    /\ In ("client_id", sample_client_id) (query_pairs url)
    /\ In ("client_id", Some sample_client_id) fields
    /\ In ("code", Some "4/0AfJohXk") fields.
Proof.
  apply (exchange_matches_login (Some sample_client_id) (Some sample_secret)
           sample_client_id (Some "4/0AfJohXk") (answering token_response)
           logged_in).
  - reflexivity.
  - reflexivity.
Defined.
